(** * The interrupt-controller dispatch facade of [metal/interrupt.h]

    A shallow embedding of the inline functions of [metal/interrupt.h].
    Every function of the header has the shape

      [return controller->vtable->SLOT(controller, args...);]

    so the embedding makes explicit what the C text leaves implicit: the
    two pointer loads ([controller->] and [vtable->]), the call through a
    function pointer, and the outcomes C gives them, including the
    undefined ones (a null or dangling pointer). *)

From Stdlib Require Import ZArith.
From stdpp Require Import base gmap.

Local Open Scope Z_scope.

(** ** Data model *)

(** Object and function pointers are machine addresses; [NULL] is 0. *)
Abbreviation ptr := Z (only parsing).

Definition NULL : ptr := 0.

(** [metal_intr_cntrl_type], lines 16-21. *)
Inductive metal_intr_cntrl_type : Set :=
| METAL_CPU_CONTROLLER
| METAL_CLINT_CONTROLLER
| METAL_CLIC_CONTROLLER
| METAL_PLIC_CONTROLLER.

(** [metal_vector_mode], lines 26-31. *)
Inductive metal_vector_mode : Set :=
| METAL_DIRECT_MODE
| METAL_VECTOR_MODE
| METAL_SELECTIVE_VECTOR_MODE
| METAL_HARDWARE_VECTOR_MODE.

(** The enumerators' values, as the header assigns them. *)
Definition cntrl_value (k : metal_intr_cntrl_type) : Z :=
  match k with
  | METAL_CPU_CONTROLLER => 0
  | METAL_CLINT_CONTROLLER => 1
  | METAL_CLIC_CONTROLLER => 2
  | METAL_PLIC_CONTROLLER => 3
  end.

Definition mode_value (k : metal_vector_mode) : Z :=
  match k with
  | METAL_DIRECT_MODE => 0
  | METAL_VECTOR_MODE => 1
  | METAL_SELECTIVE_VECTOR_MODE => 2
  | METAL_HARDWARE_VECTOR_MODE => 3
  end.

(** [struct metal_interrupt_vtable], lines 40-55: twelve function
    pointers.  A slot a backend does not fill holds [NULL]. *)
Record metal_interrupt_vtable : Set := Vtable {
  interrupt_init : ptr;
  interrupt_register : ptr;
  interrupt_enable : ptr;
  interrupt_disable : ptr;
  interrupt_vector_enable : ptr;
  interrupt_vector_disable : ptr;
  interrupt_get_threshold : ptr;
  interrupt_set_threshold : ptr;
  interrupt_get_priority : ptr;
  interrupt_set_priority : ptr;
  command_request : ptr;
  mtimecmp_set : ptr
}.

(** [struct metal_interrupt], lines 60-62: the handle holds one pointer,
    to its (const) table. *)
Record metal_interrupt : Set := Handle { vtable : ptr }.

(** The memory a call runs in: the handle objects and the tables, each by
    address, and the backends' private state [B] (device registers or
    whatever a backend keeps), which the header never looks into. *)
Record memory (B : Type) : Type := Memory {
  objs : gmap Z metal_interrupt;
  tabs : gmap Z metal_interrupt_vtable;
  priv : B
}.

Arguments Memory {B} _ _ _.
Arguments objs {B} _.
Arguments tabs {B} _.
Arguments priv {B} _.

(** What C leaves undefined in these functions. *)
Inductive fault : Set :=
| NullDeref      (* [p->field] with [p == NULL] *)
| InvalidDeref   (* [p->field] with [p] pointing at no object of the type *)
| NullCall       (* a call through a null function pointer *)
| InvalidCall    (* a call through a pointer that is no function *)
| BadSignature.  (* a call through a pointer to a function of another type *)

(** The outcome of running a piece of C: it returns a value and leaves a
    memory, its behaviour is undefined, or (a backend only) it never
    returns. *)
Inductive outcome (B A : Type) : Type :=
| Done (v : A) (m : memory B)
| Undefined (u : fault)
| Diverges.

Arguments Done {B A} _ _.
Arguments Undefined {B A} _.
Arguments Diverges {B A}.

Definition exec (B A : Type) : Type := memory B -> outcome B A.

Definition ret {B A} (v : A) : exec B A := fun m => Done v m.

Definition bind {B A C} (e : exec B A) (k : A -> exec B C) : exec B C :=
  fun m =>
    match e m with
    | Done v m' => k v m'
    | Undefined u => Undefined u
    | Diverges => Diverges
    end.

Definition undefined {B A} (u : fault) : exec B A := fun _ => Undefined u.

Declare Scope exec_scope.
Delimit Scope exec_scope with exec.
Notation "x <- e ;; k" := (bind e (fun x => k))
  (at level 100, e at next level, right associativity) : exec_scope.

(** The result of [e] seen through [f]. *)
Definition exec_map {B A C} (f : A -> C) (e : exec B A) : exec B C :=
  bind e (fun v => ret (f v)).

(** The value a completed run hands back. *)
Definition value_of {B A} (o : outcome B A) : option A :=
  match o with
  | Done v _ => Some v
  | Undefined _ | Diverges => None
  end.

(** A backend function, by the C type of the slot it can fill.  [int],
    [unsigned int] and [unsigned long long] values are integers; the
    header does no arithmetic on them. *)
Inductive cfun (B : Type) : Type :=
| Fn_void_c (f : ptr -> exec B unit)
| Fn_int_c_i_h_p (f : ptr -> Z -> ptr -> ptr -> exec B Z)
| Fn_int_c_i (f : ptr -> Z -> exec B Z)
| Fn_int_c_i_m (f : ptr -> Z -> metal_vector_mode -> exec B Z)
| Fn_uint_c (f : ptr -> exec B Z)
| Fn_int_c_u (f : ptr -> Z -> exec B Z)
| Fn_uint_c_i (f : ptr -> Z -> exec B Z)
| Fn_int_c_i_u (f : ptr -> Z -> Z -> exec B Z)
| Fn_int_c_i_p (f : ptr -> Z -> ptr -> exec B Z)
| Fn_int_c_i_ull (f : ptr -> Z -> Z -> exec B Z).

Arguments Fn_void_c {B} _.
Arguments Fn_int_c_i_h_p {B} _.
Arguments Fn_int_c_i {B} _.
Arguments Fn_int_c_i_m {B} _.
Arguments Fn_uint_c {B} _.
Arguments Fn_int_c_u {B} _.
Arguments Fn_uint_c_i {B} _.
Arguments Fn_int_c_i_u {B} _.
Arguments Fn_int_c_i_p {B} _.
Arguments Fn_int_c_i_ull {B} _.

(** ** The facade *)

Section Facade.

Context {B : Type}.

(** The program text: the backend functions, by address. *)
Variable code : gmap Z (cfun B).

Local Open Scope exec_scope.

(** [controller->]: load the handle object. *)
Definition load_controller (controller : ptr) : exec B metal_interrupt :=
  fun m =>
    if controller =? NULL then Undefined NullDeref
    else match objs m !! controller with
         | Some c => Done c m
         | None => Undefined InvalidDeref
         end.

(** [vtable->]: load the table. *)
Definition load_vtable (vt : ptr) : exec B metal_interrupt_vtable :=
  fun m =>
    if vt =? NULL then Undefined NullDeref
    else match tabs m !! vt with
         | Some t => Done t m
         | None => Undefined InvalidDeref
         end.

(** The function a slot's pointer designates. *)
Definition load_fn (slot : ptr) : exec B (cfun B) :=
  fun m =>
    if slot =? NULL then Undefined NullCall
    else match code !! slot with
         | Some f => Done f m
         | None => Undefined InvalidCall
         end.

(** Lines 73-76. *)
Definition metal_interrupt_init (controller : ptr) : exec B unit :=
  c <- load_controller controller ;;
  vt <- load_vtable (vtable c) ;;
  f <- load_fn (interrupt_init vt) ;;
  match f with
  | Fn_void_c g => g controller
  | _ => undefined BadSignature
  end.

(** Lines 96-102. *)
Definition metal_interrupt_register_handler
    (controller : ptr) (id : Z) (handler priv_data : ptr) : exec B Z :=
  c <- load_controller controller ;;
  vt <- load_vtable (vtable c) ;;
  f <- load_fn (interrupt_register vt) ;;
  match f with
  | Fn_int_c_i_h_p g => g controller id handler priv_data
  | _ => undefined BadSignature
  end.

(** Lines 110-113. *)
Definition metal_interrupt_enable (controller : ptr) (id : Z) : exec B Z :=
  c <- load_controller controller ;;
  vt <- load_vtable (vtable c) ;;
  f <- load_fn (interrupt_enable vt) ;;
  match f with
  | Fn_int_c_i g => g controller id
  | _ => undefined BadSignature
  end.

(** Lines 121-124. *)
Definition metal_interrupt_disable (controller : ptr) (id : Z) : exec B Z :=
  c <- load_controller controller ;;
  vt <- load_vtable (vtable c) ;;
  f <- load_fn (interrupt_disable vt) ;;
  match f with
  | Fn_int_c_i g => g controller id
  | _ => undefined BadSignature
  end.

(** Lines 133-137. *)
Definition metal_interrupt_vector_enable
    (controller : ptr) (id : Z) (mode : metal_vector_mode) : exec B Z :=
  c <- load_controller controller ;;
  vt <- load_vtable (vtable c) ;;
  f <- load_fn (interrupt_vector_enable vt) ;;
  match f with
  | Fn_int_c_i_m g => g controller id mode
  | _ => undefined BadSignature
  end.

(** Lines 145-148. *)
Definition metal_interrupt_set_threshold
    (controller : ptr) (level : Z) : exec B Z :=
  c <- load_controller controller ;;
  vt <- load_vtable (vtable c) ;;
  f <- load_fn (interrupt_set_threshold vt) ;;
  match f with
  | Fn_int_c_u g => g controller level
  | _ => undefined BadSignature
  end.

(** Lines 155-158. *)
Definition metal_interrupt_get_threshold (controller : ptr) : exec B Z :=
  c <- load_controller controller ;;
  vt <- load_vtable (vtable c) ;;
  f <- load_fn (interrupt_get_threshold vt) ;;
  match f with
  | Fn_uint_c g => g controller
  | _ => undefined BadSignature
  end.

(** Lines 167-171. *)
Definition metal_interrupt_set_priority
    (controller : ptr) (id : Z) (priority : Z) : exec B Z :=
  c <- load_controller controller ;;
  vt <- load_vtable (vtable c) ;;
  f <- load_fn (interrupt_set_priority vt) ;;
  match f with
  | Fn_int_c_i_u g => g controller id priority
  | _ => undefined BadSignature
  end.

(** Lines 179-182. *)
Definition metal_interrupt_get_priority
    (controller : ptr) (id : Z) : exec B Z :=
  c <- load_controller controller ;;
  vt <- load_vtable (vtable c) ;;
  f <- load_fn (interrupt_get_priority vt) ;;
  match f with
  | Fn_uint_c_i g => g controller id
  | _ => undefined BadSignature
  end.

(** Lines 190-193. *)
Definition metal_interrupt_vector_disable
    (controller : ptr) (id : Z) : exec B Z :=
  c <- load_controller controller ;;
  vt <- load_vtable (vtable c) ;;
  f <- load_fn (interrupt_vector_disable vt) ;;
  match f with
  | Fn_int_c_i g => g controller id
  | _ => undefined BadSignature
  end.

(** Lines 196-200. *)
Definition _metal_interrupt_command_request
    (controller : ptr) (cmd : Z) (data : ptr) : exec B Z :=
  c <- load_controller controller ;;
  vt <- load_vtable (vtable c) ;;
  f <- load_fn (command_request vt) ;;
  match f with
  | Fn_int_c_i_p g => g controller cmd data
  | _ => undefined BadSignature
  end.

End Facade.

(** ** The facade as one family of operations

    The eleven entry points of the header, each with its arguments, so
    that a statement can range over all of them. *)

Inductive facade_call : Set :=
| Call_init
| Call_register_handler (id : Z) (handler priv_data : ptr)
| Call_enable (id : Z)
| Call_disable (id : Z)
| Call_vector_enable (id : Z) (mode : metal_vector_mode)
| Call_set_threshold (level : Z)
| Call_get_threshold
| Call_set_priority (id : Z) (priority : Z)
| Call_get_priority (id : Z)
| Call_vector_disable (id : Z)
| Call_command_request (cmd : Z) (data : ptr).

(** What an entry point hands back, by its C return type. *)
Inductive retval : Set :=
| Rvoid
| Rint (r : Z)
| Ruint (r : Z).

(** The slot of the table that the entry point for [c] reads. *)
Definition slot_of (c : facade_call) (t : metal_interrupt_vtable) : ptr :=
  match c with
  | Call_init => interrupt_init t
  | Call_register_handler _ _ _ => interrupt_register t
  | Call_enable _ => interrupt_enable t
  | Call_disable _ => interrupt_disable t
  | Call_vector_enable _ _ => interrupt_vector_enable t
  | Call_set_threshold _ => interrupt_set_threshold t
  | Call_get_threshold => interrupt_get_threshold t
  | Call_set_priority _ _ => interrupt_set_priority t
  | Call_get_priority _ => interrupt_get_priority t
  | Call_vector_disable _ => interrupt_vector_disable t
  | Call_command_request _ _ => command_request t
  end.

Section Dispatch.

Context {B : Type}.
Variable code : gmap Z (cfun B).

(** The entry point for [c], run on [controller]. *)
Definition run (c : facade_call) (controller : ptr) : exec B retval :=
  match c with
  | Call_init =>
      exec_map (fun _ => Rvoid) (metal_interrupt_init code controller)
  | Call_register_handler id handler priv_data =>
      exec_map Rint
        (metal_interrupt_register_handler code controller id handler priv_data)
  | Call_enable id =>
      exec_map Rint (metal_interrupt_enable code controller id)
  | Call_disable id =>
      exec_map Rint (metal_interrupt_disable code controller id)
  | Call_vector_enable id mode =>
      exec_map Rint (metal_interrupt_vector_enable code controller id mode)
  | Call_set_threshold level =>
      exec_map Rint (metal_interrupt_set_threshold code controller level)
  | Call_get_threshold =>
      exec_map Ruint (metal_interrupt_get_threshold code controller)
  | Call_set_priority id priority =>
      exec_map Rint (metal_interrupt_set_priority code controller id priority)
  | Call_get_priority id =>
      exec_map Ruint (metal_interrupt_get_priority code controller id)
  | Call_vector_disable id =>
      exec_map Rint (metal_interrupt_vector_disable code controller id)
  | Call_command_request cmd data =>
      exec_map Rint (_metal_interrupt_command_request code controller cmd data)
  end.

(** The backend function [fn] applied to the handle and to the arguments
    of [c] as the caller gave them; [None] when [fn] has not the type of
    the slot [c] goes through. *)
Definition backend_call (c : facade_call) (fn : cfun B) (controller : ptr)
  : option (exec B retval) :=
  match c, fn with
  | Call_init, Fn_void_c g =>
      Some (exec_map (fun _ => Rvoid) (g controller))
  | Call_register_handler id handler priv_data, Fn_int_c_i_h_p g =>
      Some (exec_map Rint (g controller id handler priv_data))
  | Call_enable id, Fn_int_c_i g => Some (exec_map Rint (g controller id))
  | Call_disable id, Fn_int_c_i g => Some (exec_map Rint (g controller id))
  | Call_vector_enable id mode, Fn_int_c_i_m g =>
      Some (exec_map Rint (g controller id mode))
  | Call_set_threshold level, Fn_int_c_u g =>
      Some (exec_map Rint (g controller level))
  | Call_get_threshold, Fn_uint_c g => Some (exec_map Ruint (g controller))
  | Call_set_priority id priority, Fn_int_c_i_u g =>
      Some (exec_map Rint (g controller id priority))
  | Call_get_priority id, Fn_uint_c_i g =>
      Some (exec_map Ruint (g controller id))
  | Call_vector_disable id, Fn_int_c_i g =>
      Some (exec_map Rint (g controller id))
  | Call_command_request cmd data, Fn_int_c_i_p g =>
      Some (exec_map Rint (g controller cmd data))
  | _, _ => None
  end.

(** One call through the function pointer [slot], with the arguments of
    [c]. *)
Definition invoke (slot : ptr) (c : facade_call) (controller : ptr)
  : exec B retval :=
  fun m =>
    if slot =? NULL then Undefined NullCall
    else match code !! slot with
         | None => Undefined InvalidCall
         | Some fn =>
             match backend_call c fn controller with
             | Some k => k m
             | None => Undefined BadSignature
             end
         end.

(** The two loads and the one call that every entry point performs. *)
Definition dispatch (c : facade_call) (controller : ptr) : exec B retval :=
  fun m =>
    if controller =? NULL then Undefined NullDeref
    else match objs m !! controller with
         | None => Undefined InvalidDeref
         | Some o =>
             if vtable o =? NULL then Undefined NullDeref
             else match tabs m !! vtable o with
                  | None => Undefined InvalidDeref
                  | Some t => invoke (slot_of c t) c controller m
                  end
         end.

(** A handle bound to a table: what a well-formed call starts from. *)
Definition bound (controller : ptr) (t : metal_interrupt_vtable)
    (m : memory B) : Prop :=
  controller <> NULL /\
  exists o, objs m !! controller = Some o /\
            vtable o <> NULL /\ tabs m !! vtable o = Some t.

(** A handle that is nil or designates no handle object. *)
Definition unbound (controller : ptr) (m : memory B) : Prop :=
  controller = NULL \/ objs m !! controller = None.

(** A slot that is filled with the function [fn]. *)
Definition present (slot : ptr) (fn : cfun B) : Prop :=
  slot <> NULL /\ code !! slot = Some fn.

End Dispatch.

(** A run of facade calls, one after the other, each on its handle. *)
Fixpoint run_all {B : Type} (code : gmap Z (cfun B))
    (calls : list (facade_call * ptr)) : exec B (list retval) :=
  match calls with
  | [] => ret []
  | (c, controller) :: rest =>
      bind (run code c controller) (fun r =>
      bind (run_all code rest) (fun rs => ret (r :: rs)))
  end.

(** A program text whose backend functions leave the handle objects and
    the tables as they found them: they treat the table as the [const]
    object its type says it is, and the handle's one field as set once. *)
Definition keeps_dispatch_data {B : Type} (code : gmap Z (cfun B)) : Prop :=
  forall (p : ptr) (fn : cfun B) (c : facade_call) (controller : ptr)
         (k : exec B retval) (m m' : memory B) (r : retval),
    code !! p = Some fn ->
    backend_call c fn controller = Some k ->
    k m = Done r m' ->
    objs m' = objs m /\ tabs m' = tabs m.

(** Two tables that agree on the eleven slots the entry points read. *)
Definition same_facade_slots (t t' : metal_interrupt_vtable) : Prop :=
  interrupt_init t = interrupt_init t' /\
  interrupt_register t = interrupt_register t' /\
  interrupt_enable t = interrupt_enable t' /\
  interrupt_disable t = interrupt_disable t' /\
  interrupt_vector_enable t = interrupt_vector_enable t' /\
  interrupt_vector_disable t = interrupt_vector_disable t' /\
  interrupt_get_threshold t = interrupt_get_threshold t' /\
  interrupt_set_threshold t = interrupt_set_threshold t' /\
  interrupt_get_priority t = interrupt_get_priority t' /\
  interrupt_set_priority t = interrupt_set_priority t' /\
  command_request t = command_request t'.

(** ** A sample platform

    One controller whose private state is a single enable register (bit
    [id] set: interrupt [id] enabled), used to evaluate the facade on
    concrete memories. *)

Module Sample.

Definition set_priv (v : Z) (m : memory Z) : memory Z :=
  Memory (objs m) (tabs m) v.

Definition sample_init (controller : ptr) : exec Z unit :=
  fun m => Done tt (set_priv 0 m).

(** An initialisation that fails: all it can do is leave a mark in its
    own state, its C type being [void]. *)
Definition sample_init_failing (controller : ptr) : exec Z unit :=
  fun m => Done tt (set_priv (-1) m).

Definition sample_enable (controller : ptr) (id : Z) : exec Z Z :=
  fun m => Done 0 (set_priv (Z.lor (priv m) (Z.shiftl 1 id)) m).

Definition sample_get_threshold (controller : ptr) : exec Z Z :=
  fun m => Done 7 m.

Definition sample_mtimecmp_set (controller : ptr) (hartid time : Z)
  : exec Z Z :=
  fun m => Done 0 (set_priv time m).

Definition code : gmap Z (cfun Z) :=
  {[ 256 := Fn_void_c sample_init;
     260 := Fn_int_c_i sample_enable;
     264 := Fn_int_c_i_ull sample_mtimecmp_set;
     268 := Fn_void_c sample_init_failing;
     272 := Fn_uint_c sample_get_threshold ]}.

(** A table with no slot filled. *)
Definition empty_table : metal_interrupt_vtable :=
  Vtable 0 0 0 0 0 0 0 0 0 0 0 0.

(** A backend with init, enable, a threshold getter and the timer
    compare, and no priority support. *)
Definition table : metal_interrupt_vtable :=
  Vtable 256 0 260 0 0 0 272 0 0 0 0 264.

(** The same backend with the timer-compare slot left empty. *)
Definition table' : metal_interrupt_vtable :=
  Vtable 256 0 260 0 0 0 272 0 0 0 0 0.

(** A backend that fills the timer-compare slot only. *)
Definition timer_only_table : metal_interrupt_vtable :=
  Vtable 0 0 0 0 0 0 0 0 0 0 0 264.

(** A backend whose initialisation fails. *)
Definition failing_table : metal_interrupt_vtable :=
  Vtable 268 0 260 0 0 0 272 0 0 0 0 264.

(** One handle at address 16, its table at address 32. *)
Definition mem (t : metal_interrupt_vtable) : memory Z :=
  Memory {[ 16 := Handle 32 ]} {[ 32 := t ]} 0.

(** Another layout: the handle at 48, its table at 64, and a register
    that already holds something. *)
Definition mem' (t : metal_interrupt_vtable) : memory Z :=
  Memory {[ 48 := Handle 64 ]} {[ 64 := t ]} 5.

End Sample.

(** ** The controller directory

    The header declares [metal_interrupt_get_controller] (lines 85-86)
    and leaves its body to the platform. *)

#[global] Instance metal_intr_cntrl_type_eq_dec :
  EqDecision metal_intr_cntrl_type.
Proof. solve_decision. Defined.

Definition cntrl_of_value (z : Z) : metal_intr_cntrl_type :=
  if z =? 1 then METAL_CLINT_CONTROLLER
  else if z =? 2 then METAL_CLIC_CONTROLLER
  else if z =? 3 then METAL_PLIC_CONTROLLER
  else METAL_CPU_CONTROLLER.

#[global] Instance metal_intr_cntrl_type_countable :
  Countable metal_intr_cntrl_type.
Proof.
  refine (inj_countable' cntrl_value cntrl_of_value _).
  intros []; reflexivity.
Defined.

(** One registration made during system setup: the controller's kind,
    its instance number and its handle. *)
Definition registration : Type := metal_intr_cntrl_type * Z * ptr.

Definition registration_key (r : registration)
  : metal_intr_cntrl_type * Z := r.1.

(** Modelled from the spec: the directory that the body of
    [metal_interrupt_get_controller] consults, which is not in the header.
    The spec (4.3) has backends register [(kind, index) -> handle] once, at
    setup, and the mapping stay as it is afterwards. *)
Definition directory_setup (regs : list registration)
  : gmap (metal_intr_cntrl_type * Z) Z :=
  foldl (fun d r => <[registration_key r := r.2]> d) ∅ regs.

(** Modelled from the spec: the body of [metal_interrupt_get_controller],
    of which the header has the declaration only.  The spec (4.3) and the
    declaration's comment have it return the handle registered for the
    kind and instance, and [NULL] (not found) when there is none. *)
Definition metal_interrupt_get_controller
    (d : gmap (metal_intr_cntrl_type * Z) Z)
    (cntrl : metal_intr_cntrl_type) (id : Z) : ptr :=
  match d !! (cntrl, id) with
  | Some controller => controller
  | None => NULL
  end.

(** ** A backend as the spec describes one

    The header has the type of the [interrupt_disable] slot and the entry
    point that calls it; the function a backend puts there is not in it. *)

Module Backend.

(** Modelled from the spec: the private state of one controller, which no
    file at hand declares: whether [init] has run (3, invariant b), its
    handler registry (3, 4.4: interrupt id to callback and context) and
    the interrupt ids that are enabled, over the ids [0 .. num_ids - 1]
    that the backend takes for valid. *)
Record controller_state : Type := State {
  initialised : bool;
  num_ids : Z;
  handlers : gmap Z (Z * Z);
  enabled : gset Z
}.

(** The private states of all controllers, by handle address: each handle
    owns its own (3). *)
Abbreviation store := (gmap Z controller_state) (only parsing).

(** Results other than 0 (success): the spec's [InvalidHandle] and
    [InvalidArgument]. *)
Definition INVALID_HANDLE : Z := -1.
Definition INVALID_ARGUMENT : Z := -2.

Definition valid_id (st : controller_state) (id : Z) : bool :=
  (0 <=? id) && (id <? num_ids st).

(** Modelled from the spec: a backend's [interrupt_disable], the function
    behind the slot of line 45, which is not in the header.  By 4.1 it
    either succeeds with the state updated or fails with nothing changed;
    by 4.4 disabling leaves the handler entry in place; by 8 a call before
    [init] is an [InvalidHandle] or the like; by 7 an id out of the
    backend's range is an [InvalidArgument]. *)
Definition interrupt_disable (controller : ptr) (id : Z)
  : exec (gmap Z controller_state) Z :=
  fun m =>
    match priv m !! controller with
    | None => Done INVALID_HANDLE m
    | Some st =>
        if negb (initialised st) then Done INVALID_HANDLE m
        else if valid_id st id then
          Done 0
            (Memory (objs m) (tabs m)
               (<[controller :=
                    State true (num_ids st) (handlers st)
                          (enabled st ∖ {[id]})]>
                  (priv m)))
        else Done INVALID_ARGUMENT m
    end.

(** A platform with this backend: the disable function at address 512,
    a table with that slot filled, one initialised handle at 16 with four
    interrupt ids, of which 1 and 2 are enabled and 2 has a handler. *)
Definition code : gmap Z (cfun (gmap Z controller_state)) :=
  {[ 512 := Fn_int_c_i interrupt_disable ]}.

Definition table : metal_interrupt_vtable :=
  Vtable 0 0 0 512 0 0 0 0 0 0 0 0.

Definition mem : memory (gmap Z controller_state) :=
  Memory {[ 16 := Handle 32 ]} {[ 32 := table ]}
         {[ 16 := State true 4 {[ 2 := (1024, 2048) ]} {[ 1; 2 ]} ]}.

End Backend.

(** ** Calls with the slots read beforehand *)

(** A run of calls, each given with the table its handle is bound to: one
    call through the slot pointer read off that table, and no load of the
    handle or of the table in between. *)
Fixpoint invoke_all {B : Type} (code : gmap Z (cfun B))
    (calls : list (facade_call * ptr * metal_interrupt_vtable))
  : exec B (list retval) :=
  match calls with
  | [] => ret []
  | (c, controller, t) :: rest =>
      bind (invoke code (slot_of c t) c controller) (fun r =>
      bind (invoke_all code rest) (fun rs => ret (r :: rs)))
  end.

(** A backend function that refuses: it reports a status other than 0
    and changes nothing. *)
Definition refusing_enable (controller : ptr) (id : Z) : exec Z Z :=
  fun m => Done (-1) m.

Definition refusing_code : gmap Z (cfun Z) :=
  {[ 260 := Fn_int_c_i refusing_enable ]}.



(** ** Every entry point is its dispatch *)

(** Unfold an entry point down to its loads. *)
Ltac unfold_facade :=
  unfold metal_interrupt_init, metal_interrupt_register_handler,
    metal_interrupt_enable, metal_interrupt_disable,
    metal_interrupt_vector_enable, metal_interrupt_set_threshold,
    metal_interrupt_get_threshold, metal_interrupt_set_priority,
    metal_interrupt_get_priority, metal_interrupt_vector_disable,
    _metal_interrupt_command_request, bind, load_controller, load_vtable.

(** The same, with the loads rewritten on a bound handle. *)
Ltac facade_on_bound Hc Ho Hv Ht :=
  unfold_facade; rewrite Hc, Ho, Hv, Ht.

(** The call through a slot that is filled. *)
Ltac slot_filled Hp :=
  let Hn := fresh "Hn" in
  let Hf := fresh "Hf" in
  destruct Hp as [Hn Hf]; apply Z.eqb_neq in Hn;
  unfold load_fn; rewrite Hn, Hf; reflexivity.

Section FacadeFacts.

Context {B : Type}.
Variable code : gmap Z (cfun B).

Lemma run_dispatch (c : facade_call) (controller : ptr) (m : memory B) :
  run code c controller m = dispatch code c controller m.
Proof.
  unfold dispatch, invoke.
  destruct c; cbn -[Z.eqb]; unfold exec_map; unfold_facade;
    unfold load_fn, undefined;
    (destruct (controller =? NULL); [reflexivity|]);
    (destruct (objs m !! controller) as [o|]; [|reflexivity]);
    (destruct (vtable o =? NULL); [reflexivity|]);
    (destruct (tabs m !! vtable o) as [t|]; [|reflexivity]);
    cbn -[Z.eqb];
    match goal with |- context [?p =? NULL] => destruct (p =? NULL) end;
    try reflexivity;
    match goal with |- context [code !! ?p] => destruct (code !! p) as [[]|] end;
    reflexivity.
Qed.

Lemma dispatch_bound (c : facade_call) (controller : ptr)
    (t : metal_interrupt_vtable) (m : memory B) :
  bound controller t m ->
  dispatch code c controller m = invoke code (slot_of c t) c controller m.
Proof.
  intros [Hc (o & Ho & Hv & Ht)]. unfold dispatch.
  apply Z.eqb_neq in Hc, Hv. rewrite Hc, Ho, Hv, Ht. reflexivity.
Qed.

Lemma run_bound (c : facade_call) (controller : ptr)
    (t : metal_interrupt_vtable) (m : memory B) :
  bound controller t m ->
  run code c controller m = invoke code (slot_of c t) c controller m.
Proof. intros Hb. rewrite run_dispatch. apply dispatch_bound, Hb. Qed.

Lemma dispatch_Done_bound (c : facade_call) (controller : ptr)
    (m m' : memory B) (r : retval) :
  dispatch code c controller m = Done r m' ->
  exists t, bound controller t m.
Proof.
  unfold dispatch, bound.
  destruct (Z.eqb_spec controller NULL) as [|Hc]; [discriminate|].
  destruct (objs m !! controller) as [o|] eqn:Ho; [|discriminate].
  destruct (Z.eqb_spec (vtable o) NULL) as [|Hv]; [discriminate|].
  destruct (tabs m !! vtable o) as [t|] eqn:Ht; [|discriminate].
  intros _. exists t. split; [exact Hc|]. exists o. auto.
Qed.

Lemma invoke_Done_inv (slot : ptr) (c : facade_call) (controller : ptr)
    (m m' : memory B) (r : retval) :
  invoke code slot c controller m = Done r m' ->
  exists fn k, present code slot fn /\
               backend_call c fn controller = Some k /\ k m = Done r m'.
Proof.
  unfold invoke, present.
  destruct (Z.eqb_spec slot NULL) as [|Hs]; [discriminate|].
  destruct (code !! slot) as [fn|]; [|discriminate].
  destruct (backend_call c fn controller) as [k|] eqn:Hk; [|discriminate].
  intros Hr. exists fn, k. auto.
Qed.

(** A completed facade call is one completed backend call, on the memory
    the caller had, with the result and the memory the backend left. *)
Lemma run_Done_inv (c : facade_call) (controller : ptr)
    (m m' : memory B) (r : retval) :
  run code c controller m = Done r m' ->
  exists t fn k,
    bound controller t m /\ present code (slot_of c t) fn /\
    backend_call c fn controller = Some k /\ k m = Done r m'.
Proof.
  intros Hrun. rewrite run_dispatch in Hrun.
  destruct (dispatch_Done_bound _ _ _ _ _ Hrun) as [t Hb].
  rewrite (dispatch_bound _ _ _ _ Hb) in Hrun.
  destruct (invoke_Done_inv _ _ _ _ _ _ Hrun) as (fn & k & Hp & Hk & Hr).
  exists t, fn, k. auto.
Qed.

End FacadeFacts.

(** ** The sample platform, run *)

Lemma sample_bound (t : metal_interrupt_vtable) :
  bound 16 t (Sample.mem t).
Proof.
  split; [discriminate|]. exists (Handle 32).
  split; [reflexivity|]. split; [discriminate|reflexivity].
Defined.

Lemma sample_bound' (t : metal_interrupt_vtable) :
  bound 48 t (Sample.mem' t).
Proof.
  split; [discriminate|]. exists (Handle 64).
  split; [reflexivity|]. split; [discriminate|reflexivity].
Defined.

Example sample_init_runs :
  metal_interrupt_init Sample.code 16 (Sample.mem' Sample.table)
  = Undefined InvalidDeref /\
  metal_interrupt_init Sample.code 48 (Sample.mem' Sample.table)
  = Done tt (Sample.set_priv 0 (Sample.mem' Sample.table)).
Proof. split; reflexivity. Qed.

Example sample_enable_runs :
  metal_interrupt_enable Sample.code 16 3 (Sample.mem Sample.table)
  = Done 0 (Sample.set_priv 8 (Sample.mem Sample.table)).
Proof. reflexivity. Qed.

Example sample_get_threshold_runs :
  metal_interrupt_get_threshold Sample.code 48 (Sample.mem' Sample.table)
  = Done 7 (Sample.mem' Sample.table).
Proof. reflexivity. Qed.

Example sample_disable_absent :
  metal_interrupt_disable Sample.code 16 3 (Sample.mem Sample.table)
  = Undefined NullCall.
Proof. reflexivity. Qed.

Example backend_disable_runs :
  metal_interrupt_disable Backend.code 16 2 Backend.mem
  = Done 0
      (Memory (objs Backend.mem) (tabs Backend.mem)
         {[ 16 := Backend.State true 4 {[ 2 := (1024, 2048) ]} {[ 1 ]} ]}) /\
  metal_interrupt_disable Backend.code 16 9 Backend.mem
  = Done Backend.INVALID_ARGUMENT Backend.mem.
Proof. split; vm_compute; reflexivity. Qed.

Example get_controller_runs :
  metal_interrupt_get_controller
    (directory_setup
       [(METAL_PLIC_CONTROLLER, 0, 16); (METAL_CPU_CONTROLLER, 1, 48)])
    METAL_PLIC_CONTROLLER 0 = 16 /\
  metal_interrupt_get_controller
    (directory_setup
       [(METAL_PLIC_CONTROLLER, 0, 16); (METAL_CPU_CONTROLLER, 1, 48)])
    METAL_CLIC_CONTROLLER 0 = NULL.
Proof. split; vm_compute; reflexivity. Qed.

(** ** Absent slots and nil handles *)

Lemma run_null_slot {B : Type} (code : gmap Z (cfun B))
    (c : facade_call) (controller : ptr) (t : metal_interrupt_vtable)
    (m : memory B) :
  bound controller t m ->
  slot_of c t = NULL ->
  run code c controller m = Undefined NullCall.
Proof.
  intros Hb Hs. rewrite (run_bound _ _ _ _ _ Hb).
  unfold invoke. rewrite Hs. reflexivity.
Qed.

(** C1, as the spec states it, fails: on a handle whose table fills no
    slot, [metal_interrupt_enable] hands no error value back; the call
    goes through the null pointer. *)
Lemma absent_slot_returns_no_error :
  metal_interrupt_enable Sample.code 16 3 (Sample.mem Sample.empty_table)
    = Undefined NullCall /\
  ~ (exists r m', metal_interrupt_enable Sample.code 16 3
                    (Sample.mem Sample.empty_table) = Done r m').
Proof.
  split; [reflexivity|]. intros (r & m' & H). discriminate H.
Qed.

(** C1, amended: the facade makes no test for an absent slot.  For every
    entry point, on a bound handle whose slot for it is null, the call goes
    through the null function pointer (undefined in C): no value, so no
    error value, is handed back, and no backend function is run, whatever
    the program text holds. *)
Theorem absent_slot_is_null_call {B : Type} (code : gmap Z (cfun B))
    (c : facade_call) (controller : ptr) (t : metal_interrupt_vtable)
    (m : memory B) :
  bound controller t m ->
  slot_of c t = NULL ->
  run code c controller m = Undefined NullCall.
Proof.
  intros Hb Hs. apply (run_null_slot code c controller t m Hb Hs).
Qed.

Lemma absent_slot_is_null_call_witness :
  run Sample.code (Call_set_priority 3 1) 16 (Sample.mem Sample.table)
    = Undefined NullCall.
Proof.
  apply (absent_slot_is_null_call Sample.code (Call_set_priority 3 1) 16
           Sample.table (Sample.mem Sample.table)).
  - apply sample_bound.
  - reflexivity.
Defined.

(** C2, as the spec states it, fails: [metal_interrupt_init] on the nil
    handle detects nothing and hands nothing back; it loads through the
    null pointer. *)
Lemma nil_handle_not_detected :
  metal_interrupt_init Sample.code NULL (Sample.mem Sample.table)
    = Undefined NullDeref /\
  ~ (exists r m', metal_interrupt_init Sample.code NULL
                    (Sample.mem Sample.table) = Done r m').
Proof.
  split; [reflexivity|]. intros (r & m' & H). discriminate H.
Qed.

(** C2, amended: the facade makes no test of the handle.  For every entry
    point, a nil handle is loaded through (a null dereference) and a handle
    that designates no handle object likewise (an invalid dereference):
    undefined in C, with no error value handed back. *)
Theorem unbound_handle_is_undefined {B : Type} (code : gmap Z (cfun B))
    (c : facade_call) (controller : ptr) (m : memory B) :
  unbound controller m ->
  run code c controller m
  = Undefined (if controller =? NULL then NullDeref else InvalidDeref).
Proof.
  intros Hu. rewrite run_dispatch. unfold dispatch.
  destruct (Z.eqb_spec controller NULL) as [|Hc]; [reflexivity|].
  destruct Hu as [Hu|Hu]; [contradiction|]. rewrite Hu. reflexivity.
Qed.

Lemma unbound_handle_is_undefined_witness :
  run Sample.code (Call_get_threshold) NULL (Sample.mem Sample.table)
    = Undefined NullDeref /\
  run Sample.code (Call_get_threshold) 20 (Sample.mem Sample.table)
    = Undefined InvalidDeref.
Proof.
  split.
  - apply (unbound_handle_is_undefined Sample.code Call_get_threshold NULL
             (Sample.mem Sample.table)).
    left. reflexivity.
  - apply (unbound_handle_is_undefined Sample.code Call_get_threshold 20
             (Sample.mem Sample.table)).
    right. reflexivity.
Defined.

(** ** Forwarding *)

(** C3: on a bound handle, each entry point whose slot is filled is one
    call of the function in that slot, with the handle and the caller's
    arguments as given, for every value of the arguments (no interrupt id
    is tested against any range); the outcome, value and memory, is the
    outcome of that one call on the caller's memory. *)
Theorem facade_forwards_to_present_slot {B : Type} (code : gmap Z (cfun B))
    (controller : ptr) (t : metal_interrupt_vtable) (m : memory B) :
  bound controller t m ->
  (forall g,
      present code (interrupt_init t) (Fn_void_c g) ->
      metal_interrupt_init code controller m = g controller m) /\
  (forall g id handler priv_data,
      present code (interrupt_register t) (Fn_int_c_i_h_p g) ->
      metal_interrupt_register_handler code controller id handler priv_data m
      = g controller id handler priv_data m) /\
  (forall g id,
      present code (interrupt_enable t) (Fn_int_c_i g) ->
      metal_interrupt_enable code controller id m = g controller id m) /\
  (forall g id,
      present code (interrupt_disable t) (Fn_int_c_i g) ->
      metal_interrupt_disable code controller id m = g controller id m) /\
  (forall g id mode,
      present code (interrupt_vector_enable t) (Fn_int_c_i_m g) ->
      metal_interrupt_vector_enable code controller id mode m
      = g controller id mode m) /\
  (forall g level,
      present code (interrupt_set_threshold t) (Fn_int_c_u g) ->
      metal_interrupt_set_threshold code controller level m
      = g controller level m) /\
  (forall g,
      present code (interrupt_get_threshold t) (Fn_uint_c g) ->
      metal_interrupt_get_threshold code controller m = g controller m) /\
  (forall g id priority,
      present code (interrupt_set_priority t) (Fn_int_c_i_u g) ->
      metal_interrupt_set_priority code controller id priority m
      = g controller id priority m) /\
  (forall g id,
      present code (interrupt_get_priority t) (Fn_uint_c_i g) ->
      metal_interrupt_get_priority code controller id m = g controller id m) /\
  (forall g id,
      present code (interrupt_vector_disable t) (Fn_int_c_i g) ->
      metal_interrupt_vector_disable code controller id m
      = g controller id m) /\
  (forall g cmd data,
      present code (command_request t) (Fn_int_c_i_p g) ->
      _metal_interrupt_command_request code controller cmd data m
      = g controller cmd data m).
Proof.
  intros [Hc (o & Ho & Hv & Ht)]. apply Z.eqb_neq in Hc, Hv.
  repeat split; intros; facade_on_bound Hc Ho Hv Ht;
    match goal with Hp : present _ _ _ |- _ => slot_filled Hp end.
Qed.

Lemma facade_forwards_to_present_slot_witness :
  metal_interrupt_enable Sample.code 16 (-3) (Sample.mem Sample.table)
  = Sample.sample_enable 16 (-3) (Sample.mem Sample.table).
Proof.
  apply (facade_forwards_to_present_slot Sample.code 16 Sample.table
           (Sample.mem Sample.table) (sample_bound Sample.table)).
  split; [discriminate|reflexivity].
Defined.

(** ** The timer-compare slot *)

Lemma slot_of_same_facade_slots (c : facade_call)
    (t t' : metal_interrupt_vtable) :
  same_facade_slots t t' -> slot_of c t = slot_of c t'.
Proof.
  unfold same_facade_slots. intros H.
  destruct c; simpl; tauto.
Qed.

(** C4, as the spec states it, fails: on a backend that fills the
    timer-compare slot, and that slot only, no entry point of the facade,
    with whatever arguments, completes: none forwards to the slot. *)
Lemma no_facade_for_mtimecmp_set :
  present Sample.code (mtimecmp_set Sample.timer_only_table)
    (Fn_int_c_i_ull Sample.sample_mtimecmp_set) /\
  ~ (exists c r m', run Sample.code c 16 (Sample.mem Sample.timer_only_table)
                    = Done r m').
Proof.
  split; [split; [discriminate|reflexivity]|].
  intros (c & r & m' & H).
  rewrite (run_null_slot Sample.code c 16
             Sample.timer_only_table _ (sample_bound _)) in H;
    [discriminate H|].
  destruct c; reflexivity.
Qed.

(** C4, amended: the table has a timer-compare slot, [mtimecmp_set], but
    the header has no entry point for it.  The entry points are the eleven
    of [facade_call]; which function each of them calls, and with which
    arguments, is settled by the other eleven slots: two tables that differ
    in [mtimecmp_set] alone give the same call. *)
Theorem facade_ignores_mtimecmp_set {B : Type} (code : gmap Z (cfun B))
    (c : facade_call) (controller : ptr) (t t' : metal_interrupt_vtable)
    (m m' : memory B) :
  same_facade_slots t t' ->
  bound controller t m ->
  bound controller t' m' ->
  run code c controller m = invoke code (slot_of c t) c controller m /\
  run code c controller m' = invoke code (slot_of c t) c controller m'.
Proof.
  intros Hs Hb Hb'. split.
  - apply run_bound, Hb.
  - rewrite (slot_of_same_facade_slots c t t' Hs). apply run_bound, Hb'.
Qed.

Lemma facade_ignores_mtimecmp_set_witness :
  run Sample.code (Call_enable 3) 16 (Sample.mem Sample.table)
  = invoke Sample.code 260 (Call_enable 3) 16 (Sample.mem Sample.table) /\
  run Sample.code (Call_enable 3) 16 (Sample.mem Sample.table')
  = invoke Sample.code 260 (Call_enable 3) 16 (Sample.mem Sample.table').
Proof.
  apply (facade_ignores_mtimecmp_set Sample.code (Call_enable 3) 16
           Sample.table Sample.table').
  - repeat split.
  - apply sample_bound.
  - apply sample_bound.
Defined.

(** ** Results *)

(** C5, as the spec states it, fails for [init]: a backend whose
    initialisation succeeds and one whose initialisation fails hand the
    caller the same thing, and no two completed calls of
    [metal_interrupt_init] ever differ in what they hand back. *)
Lemma init_failure_not_reported :
  metal_interrupt_init Sample.code 16 (Sample.mem Sample.table)
    = Done tt (Sample.set_priv 0 (Sample.mem Sample.table)) /\
  metal_interrupt_init Sample.code 16 (Sample.mem Sample.failing_table)
    = Done tt (Sample.set_priv (-1) (Sample.mem Sample.failing_table)) /\
  ~ (exists (code code' : gmap Z (cfun Z)) (h h' : Z) (m m' m1 m1' : memory Z)
            (r r' : unit),
        metal_interrupt_init code h m = Done r m1 /\
        metal_interrupt_init code' h' m' = Done r' m1' /\
        r <> r').
Proof.
  split; [reflexivity|]. split; [reflexivity|].
  intros (code & code' & h & h' & m & m' & m1 & m1' & [] & [] & _ & _ & Hne).
  apply Hne. reflexivity.
Qed.

(** C5, amended: every entry point is a direct call of the backend
    function in its slot, and when that function returns, the entry point
    returns to the caller with what it returned and the memory it left,
    and not otherwise: the backend's [int] status as it is, 0 or not, for
    [register], [enable], [disable], [vector_enable], [vector_disable],
    [set_threshold], [set_priority] and [command_request]; the backend's
    [unsigned] value for [get_threshold] and [get_priority]; and for
    [init] nothing, its type being [void] (the one value of [unit]): a
    failed initialisation has no result value to travel in. *)
Theorem facade_hands_back_backend_result {B : Type} (code : gmap Z (cfun B))
    (controller : ptr) (t : metal_interrupt_vtable) (m : memory B) :
  bound controller t m ->
  (forall g (v : unit) m',
      present code (interrupt_init t) (Fn_void_c g) ->
      metal_interrupt_init code controller m = Done v m'
      <-> g controller m = Done v m') /\
  (forall g id handler priv_data (z : Z) m',
      present code (interrupt_register t) (Fn_int_c_i_h_p g) ->
      metal_interrupt_register_handler code controller id handler priv_data m
      = Done z m'
      <-> g controller id handler priv_data m = Done z m') /\
  (forall g id (z : Z) m',
      present code (interrupt_enable t) (Fn_int_c_i g) ->
      metal_interrupt_enable code controller id m = Done z m'
      <-> g controller id m = Done z m') /\
  (forall g id (z : Z) m',
      present code (interrupt_disable t) (Fn_int_c_i g) ->
      metal_interrupt_disable code controller id m = Done z m'
      <-> g controller id m = Done z m') /\
  (forall g id mode (z : Z) m',
      present code (interrupt_vector_enable t) (Fn_int_c_i_m g) ->
      metal_interrupt_vector_enable code controller id mode m = Done z m'
      <-> g controller id mode m = Done z m') /\
  (forall g level (z : Z) m',
      present code (interrupt_set_threshold t) (Fn_int_c_u g) ->
      metal_interrupt_set_threshold code controller level m = Done z m'
      <-> g controller level m = Done z m') /\
  (forall g (u : Z) m',
      present code (interrupt_get_threshold t) (Fn_uint_c g) ->
      metal_interrupt_get_threshold code controller m = Done u m'
      <-> g controller m = Done u m') /\
  (forall g id priority (z : Z) m',
      present code (interrupt_set_priority t) (Fn_int_c_i_u g) ->
      metal_interrupt_set_priority code controller id priority m = Done z m'
      <-> g controller id priority m = Done z m') /\
  (forall g id (u : Z) m',
      present code (interrupt_get_priority t) (Fn_uint_c_i g) ->
      metal_interrupt_get_priority code controller id m = Done u m'
      <-> g controller id m = Done u m') /\
  (forall g id (z : Z) m',
      present code (interrupt_vector_disable t) (Fn_int_c_i g) ->
      metal_interrupt_vector_disable code controller id m = Done z m'
      <-> g controller id m = Done z m') /\
  (forall g cmd data (z : Z) m',
      present code (command_request t) (Fn_int_c_i_p g) ->
      _metal_interrupt_command_request code controller cmd data m = Done z m'
      <-> g controller cmd data m = Done z m').
Proof.
  intros [Hc (o & Ho & Hv & Ht)]. apply Z.eqb_neq in Hc, Hv.
  repeat apply conj; intros;
    match goal with
    | Hp : present _ _ _ |- _ =>
        destruct Hp as [Hn Hf]; apply Z.eqb_neq in Hn
    end;
    facade_on_bound Hc Ho Hv Ht; unfold load_fn; rewrite Hn, Hf;
    split; intros Hdone; exact Hdone.
Qed.

Lemma facade_hands_back_backend_result_witness :
  metal_interrupt_enable refusing_code 16 40 (Sample.mem Sample.table)
  = Done (-1) (Sample.mem Sample.table).
Proof.
  destruct (facade_hands_back_backend_result refusing_code 16 Sample.table
              (Sample.mem Sample.table) (sample_bound Sample.table))
    as (_ & _ & Henable & _).
  apply (Henable refusing_enable 40 (-1) (Sample.mem Sample.table)).
  - split; [discriminate|reflexivity].
  - reflexivity.
Defined.

(** ** Backends without priority support *)

(** C7, as the spec states it, fails: on a backend that fills neither
    priority slot, [metal_interrupt_get_priority] and
    [metal_interrupt_set_priority] return nothing, so not an error value
    with the state as it was. *)
Lemma priority_absent_returns_no_error :
  metal_interrupt_get_priority Sample.code 48 3 (Sample.mem' Sample.table)
    = Undefined NullCall /\
  metal_interrupt_set_priority Sample.code 48 3 1 (Sample.mem' Sample.table)
    = Undefined NullCall /\
  ~ (exists r m', metal_interrupt_get_priority Sample.code 48 3
                    (Sample.mem' Sample.table) = Done r m' /\
                  priv m' = priv (Sample.mem' Sample.table)).
Proof.
  split; [reflexivity|]. split; [reflexivity|].
  intros (r & m' & H & _). discriminate H.
Qed.

(** C7, amended: on a backend whose two priority slots are null, for every
    interrupt id and priority, [get_priority] and [set_priority] through
    the facade are calls through a null function pointer (undefined in C):
    nothing is returned, and no backend function, whatever the program
    text holds, is run on the backend's state. *)
Theorem priority_absent_is_null_call {B : Type} (code : gmap Z (cfun B))
    (controller : ptr) (t : metal_interrupt_vtable) (m : memory B)
    (id priority : Z) :
  bound controller t m ->
  interrupt_get_priority t = NULL ->
  interrupt_set_priority t = NULL ->
  metal_interrupt_get_priority code controller id m = Undefined NullCall /\
  metal_interrupt_set_priority code controller id priority m
  = Undefined NullCall.
Proof.
  intros [Hc (o & Ho & Hv & Ht)] Hget Hset. apply Z.eqb_neq in Hc, Hv.
  split; facade_on_bound Hc Ho Hv Ht; unfold load_fn;
    rewrite ?Hget, ?Hset; reflexivity.
Qed.

Lemma priority_absent_is_null_call_witness :
  metal_interrupt_get_priority Sample.code 16 5 (Sample.mem Sample.table')
    = Undefined NullCall /\
  metal_interrupt_set_priority Sample.code 16 5 2 (Sample.mem Sample.table')
    = Undefined NullCall.
Proof.
  apply (priority_absent_is_null_call Sample.code 16 Sample.table'
           (Sample.mem Sample.table') 5 2).
  - apply sample_bound.
  - reflexivity.
  - reflexivity.
Defined.

(** ** The handle and its table stay as they are *)

Lemma bound_same_dispatch_data {B : Type} (controller : ptr)
    (t : metal_interrupt_vtable) (m m' : memory B) :
  objs m' = objs m -> tabs m' = tabs m ->
  bound controller t m -> bound controller t m'.
Proof.
  unfold bound. intros -> ->. trivial.
Qed.

Lemma sample_code_keeps_dispatch_data : keeps_dispatch_data Sample.code.
Proof.
  intros p fn c controller k m m' r Hp Hk Hr.
  unfold Sample.code in Hp.
  repeat (apply lookup_insert_Some in Hp as [[_ <-]|[_ Hp]]);
    [..|apply lookup_singleton_Some in Hp as [_ <-]];
    destruct c; simpl in Hk; try discriminate Hk;
    injection Hk as <-; injection Hr as _ <-; split; reflexivity.
Qed.

(** C9: the entry points write nothing of their own.  Over any run of
    facade calls that completes, on a platform whose backend functions
    leave the handle objects and the tables alone, every handle object
    (so its [vtable] pointer) and every table is at the end what it was at
    the start, and a handle bound to a table is still bound to it. *)
Theorem handle_table_immutable {B : Type} (code : gmap Z (cfun B))
    (calls : list (facade_call * ptr)) (m m' : memory B)
    (rs : list retval) :
  keeps_dispatch_data code ->
  run_all code calls m = Done rs m' ->
  objs m' = objs m /\ tabs m' = tabs m /\
  (forall controller t, bound controller t m -> bound controller t m').
Proof.
  intros Hkeep Hrun.
  assert (objs m' = objs m /\ tabs m' = tabs m) as [Ho Ht].
  { revert m rs Hrun. induction calls as [|[c controller] rest IH];
      intros m rs Hrun.
    - injection Hrun as _ <-. split; reflexivity.
    - simpl in Hrun. unfold bind at 1 in Hrun.
      destruct (run code c controller m) as [r m1| |] eqn:Hc;
        try discriminate Hrun.
      unfold bind in Hrun.
      destruct (run_all code rest m1) as [rs1 m2| |] eqn:Hrest;
        try discriminate Hrun.
      injection Hrun as _ <-.
      destruct (run_Done_inv _ _ _ _ _ _ Hc) as (t & fn & k & _ & [_ Hp] & Hk & Hr).
      destruct (Hkeep _ _ _ _ _ _ _ _ Hp Hk Hr) as [Ho1 Ht1].
      destruct (IH _ _ Hrest) as [Ho2 Ht2].
      split; congruence. }
  split; [exact Ho|]. split; [exact Ht|].
  intros controller t. apply bound_same_dispatch_data; assumption.
Qed.

Lemma handle_table_immutable_witness :
  objs (Sample.set_priv 8 (Sample.mem Sample.table))
    = objs (Sample.mem Sample.table) /\
  tabs (Sample.set_priv 8 (Sample.mem Sample.table))
    = tabs (Sample.mem Sample.table) /\
  (forall controller t,
      bound controller t (Sample.mem Sample.table) ->
      bound controller t (Sample.set_priv 8 (Sample.mem Sample.table))).
Proof.
  apply (handle_table_immutable Sample.code
           [(Call_init, 16); (Call_enable 3, 16); (Call_get_threshold, 16)]
           (Sample.mem Sample.table)
           (Sample.set_priv 8 (Sample.mem Sample.table))
           [Rvoid; Rint 0; Ruint 7]).
  - exact sample_code_keeps_dispatch_data.
  - reflexivity.
Defined.

(** ** Determinism *)

(** C10: what an entry point does is settled by the contents of the
    handle's table and by the call's arguments.  Two calls of the same
    entry point with the same arguments, on handles (in the same memory or
    in two) whose tables hold the same contents, are calls through the same
    function pointer with those arguments; so they have the same outcome
    whenever the backend function has, and hand back the same value
    whenever the backend function does.  Nothing else of the memory is
    read on the way. *)
Theorem facade_deterministic {B : Type} (code : gmap Z (cfun B))
    (c : facade_call) (controller1 controller2 : ptr)
    (t : metal_interrupt_vtable) (m1 m2 : memory B) :
  bound controller1 t m1 ->
  bound controller2 t m2 ->
  exists slot,
    slot = slot_of c t /\
    run code c controller1 m1 = invoke code slot c controller1 m1 /\
    run code c controller2 m2 = invoke code slot c controller2 m2 /\
    (invoke code slot c controller1 m1 = invoke code slot c controller2 m2 ->
     run code c controller1 m1 = run code c controller2 m2) /\
    (value_of (invoke code slot c controller1 m1)
     = value_of (invoke code slot c controller2 m2) ->
     value_of (run code c controller1 m1)
     = value_of (run code c controller2 m2)).
Proof.
  intros Hb1 Hb2. exists (slot_of c t).
  pose proof (run_bound code c _ _ _ Hb1) as H1.
  pose proof (run_bound code c _ _ _ Hb2) as H2.
  repeat split; try assumption; intros Heq; rewrite H1, H2; exact Heq.
Qed.

Lemma facade_deterministic_witness :
  value_of (run Sample.code Call_get_threshold 16 (Sample.mem Sample.table))
  = value_of (run Sample.code Call_get_threshold 48 (Sample.mem' Sample.table)).
Proof.
  destruct (facade_deterministic Sample.code Call_get_threshold 16 48
              Sample.table (Sample.mem Sample.table) (Sample.mem' Sample.table)
              (sample_bound Sample.table) (sample_bound' Sample.table))
    as (slot & Hslot & _ & _ & _ & Hvalue).
  apply Hvalue. rewrite Hslot. reflexivity.
Defined.

(** ** The directory *)

Lemma directory_setup_snoc (regs : list registration) (r : registration) :
  directory_setup (regs ++ [r])
  = <[registration_key r := r.2]> (directory_setup regs).
Proof. unfold directory_setup. rewrite foldl_app. reflexivity. Qed.

Lemma directory_setup_unregistered (regs : list registration)
    (key : metal_intr_cntrl_type * Z) :
  key ∉ registration_key <$> regs ->
  directory_setup regs !! key = None.
Proof.
  induction regs as [|r regs IH] using rev_ind; intros Hkey.
  - apply lookup_empty.
  - rewrite directory_setup_snoc. rewrite fmap_app in Hkey.
    apply not_elem_of_app in Hkey as [Hregs Hr].
    rewrite lookup_insert_ne.
    + apply IH, Hregs.
    + intros Heq. apply Hr. rewrite <- Heq. simpl. left.
Qed.

Lemma directory_setup_registered (regs : list registration)
    (cntrl : metal_intr_cntrl_type) (id : Z) (controller : ptr) :
  NoDup (registration_key <$> regs) ->
  (cntrl, id, controller) ∈ regs ->
  directory_setup regs !! (cntrl, id) = Some controller.
Proof.
  induction regs as [|r regs IH] using rev_ind; intros Hnd Hin.
  - inversion Hin.
  - rewrite directory_setup_snoc. rewrite fmap_app in Hnd.
    apply NoDup_app in Hnd as (Hnd & Hfresh & _).
    apply elem_of_app in Hin as [Hin|Hin].
    + rewrite lookup_insert_ne; [apply IH; assumption|].
      intros Heq. apply (Hfresh (cntrl, id)).
      * change (cntrl, id) with (registration_key (cntrl, id, controller)).
        apply list_elem_of_fmap_2, Hin.
      * rewrite <- Heq. simpl. left.
    + apply list_elem_of_singleton in Hin as <-. simpl.
      unfold registration_key. simpl. apply lookup_insert_eq.
Qed.

(** C6: for every kind and instance number, the lookup returns the handle
    that setup registered under them, and [NULL] (not found) when setup
    registered none; it is a total function, with no other outcome. *)
Theorem get_controller_registered_or_null (regs : list registration)
    (cntrl : metal_intr_cntrl_type) (id : Z) :
  NoDup (registration_key <$> regs) ->
  (forall controller,
      (cntrl, id, controller) ∈ regs ->
      metal_interrupt_get_controller (directory_setup regs) cntrl id
      = controller) /\
  ((cntrl, id) ∉ registration_key <$> regs ->
   metal_interrupt_get_controller (directory_setup regs) cntrl id = NULL).
Proof.
  intros Hnd. unfold metal_interrupt_get_controller. split.
  - intros controller Hin.
    rewrite (directory_setup_registered _ _ _ _ Hnd Hin). reflexivity.
  - intros Hkey. rewrite (directory_setup_unregistered _ _ Hkey). reflexivity.
Qed.

Lemma get_controller_registered_or_null_witness :
  metal_interrupt_get_controller
    (directory_setup
       [(METAL_PLIC_CONTROLLER, 0, 16); (METAL_CPU_CONTROLLER, 1, 48)])
    METAL_CPU_CONTROLLER 1 = 48 /\
  metal_interrupt_get_controller
    (directory_setup
       [(METAL_PLIC_CONTROLLER, 0, 16); (METAL_CPU_CONTROLLER, 1, 48)])
    METAL_CLIC_CONTROLLER 0 = NULL.
Proof.
  split.
  - apply (proj1 (get_controller_registered_or_null
                    [(METAL_PLIC_CONTROLLER, 0, 16);
                     (METAL_CPU_CONTROLLER, 1, 48)]
                    METAL_CPU_CONTROLLER 1 ltac:(compute_done))).
    compute_done.
  - apply (proj2 (get_controller_registered_or_null
                    [(METAL_PLIC_CONTROLLER, 0, 16);
                     (METAL_CPU_CONTROLLER, 1, 48)]
                    METAL_CLIC_CONTROLLER 0 ltac:(compute_done))).
    compute_done.
Defined.

(** ** Disabling twice *)

Lemma metal_interrupt_disable_bound {B : Type} (code : gmap Z (cfun B))
    (controller : ptr) (t : metal_interrupt_vtable) (m : memory B)
    (g : Z -> Z -> exec B Z) (id : Z) :
  bound controller t m ->
  present code (interrupt_disable t) (Fn_int_c_i g) ->
  metal_interrupt_disable code controller id m = g controller id m.
Proof.
  intros [Hc (o & Ho & Hv & Ht)] Hp. apply Z.eqb_neq in Hc, Hv.
  facade_on_bound Hc Ho Hv Ht. slot_filled Hp.
Qed.

Lemma backend_disable_dispatch_data (controller : ptr) (id r : Z)
    (m m' : memory (gmap Z Backend.controller_state)) :
  Backend.interrupt_disable controller id m = Done r m' ->
  objs m' = objs m /\ tabs m' = tabs m.
Proof.
  unfold Backend.interrupt_disable.
  destruct (priv m !! controller) as [st|]; [|intros [= _ <-]; auto].
  destruct (Backend.initialised st); simpl; [|intros [= _ <-]; auto].
  destruct (Backend.valid_id st id); intros [= _ <-]; auto.
Qed.

Lemma backend_disable_idempotent (controller : ptr) (id r : Z)
    (m m' : memory (gmap Z Backend.controller_state)) :
  Backend.interrupt_disable controller id m = Done r m' ->
  Backend.interrupt_disable controller id m' = Done r m'.
Proof.
  unfold Backend.interrupt_disable.
  destruct (priv m !! controller) as [st|] eqn:Hst.
  - destruct (Backend.initialised st) eqn:Hinit; simpl.
    + destruct (Backend.valid_id st id) eqn:Hid.
      * intros [= <- <-]. simpl. rewrite lookup_insert_eq. simpl.
        unfold Backend.valid_id in *. simpl. rewrite Hid.
        rewrite insert_insert_eq, difference_twice_L. reflexivity.
      * intros [= <- <-]. rewrite Hst, Hinit, Hid. reflexivity.
    + intros [= <- <-]. rewrite Hst, Hinit. reflexivity.
  - intros [= <- <-]. rewrite Hst. reflexivity.
Qed.

Lemma backend_disable_total (controller : ptr) (id : Z)
    (m : memory (gmap Z Backend.controller_state)) :
  exists r m', Backend.interrupt_disable controller id m = Done r m'.
Proof.
  unfold Backend.interrupt_disable.
  destruct (priv m !! controller) as [st|]; [|eauto].
  destruct (Backend.initialised st); simpl; [|eauto].
  destruct (Backend.valid_id st id); eauto.
Qed.

(** C8: with a backend's disable as the spec describes it in the slot,
    for every bound handle and every interrupt id, [metal_interrupt_disable]
    returns, and called again on the state it left it returns the same and
    leaves that state as it is. *)
Theorem disable_twice_is_disable_once
    (code : gmap Z (cfun (gmap Z Backend.controller_state)))
    (controller : ptr) (t : metal_interrupt_vtable)
    (m : memory (gmap Z Backend.controller_state)) (id : Z) :
  bound controller t m ->
  present code (interrupt_disable t) (Fn_int_c_i Backend.interrupt_disable) ->
  exists r m1,
    metal_interrupt_disable code controller id m = Done r m1 /\
    metal_interrupt_disable code controller id m1 = Done r m1.
Proof.
  intros Hb Hp.
  destruct (backend_disable_total controller id m) as (r & m1 & Hfirst).
  exists r, m1.
  rewrite (metal_interrupt_disable_bound code controller t m _ id Hb Hp).
  split; [exact Hfirst|].
  destruct (backend_disable_dispatch_data _ _ _ _ _ Hfirst) as [Ho Ht].
  rewrite (metal_interrupt_disable_bound code controller t m1 _ id
             (bound_same_dispatch_data _ _ _ _ Ho Ht Hb) Hp).
  apply (backend_disable_idempotent _ _ _ _ _ Hfirst).
Qed.

Lemma disable_twice_is_disable_once_witness :
  exists r m1,
    metal_interrupt_disable Backend.code 16 2 Backend.mem = Done r m1 /\
    metal_interrupt_disable Backend.code 16 2 m1 = Done r m1.
Proof.
  apply (disable_twice_is_disable_once Backend.code 16 Backend.table
           Backend.mem 2).
  - split; [discriminate|]. exists (Handle 32).
    split; [reflexivity|]. split; [discriminate|reflexivity].
  - split; [discriminate|reflexivity].
Defined.

(** ** Further properties of the entry points *)

(** X1: a handle object whose [vtable] field is null (a zero-initialised
    [struct metal_interrupt]) or points at no table is not detected by any
    entry point: the second load, [vtable->], is a null or an invalid
    dereference. *)
Theorem handle_without_table_is_undefined {B : Type}
    (code : gmap Z (cfun B)) (c : facade_call) (controller : ptr)
    (o : metal_interrupt) (m : memory B) :
  controller <> NULL ->
  objs m !! controller = Some o ->
  vtable o = NULL \/ tabs m !! vtable o = None ->
  run code c controller m
  = Undefined (if vtable o =? NULL then NullDeref else InvalidDeref).
Proof.
  intros Hc Ho Hv. rewrite run_dispatch. unfold dispatch.
  apply Z.eqb_neq in Hc. rewrite Hc, Ho.
  destruct (Z.eqb_spec (vtable o) NULL) as [|Hn]; [reflexivity|].
  destruct Hv as [Hv|Hv]; [contradiction|]. rewrite Hv. reflexivity.
Qed.

Lemma handle_without_table_is_undefined_witness :
  run Sample.code (Call_set_threshold 2) 16
    (Memory {[ 16 := Handle NULL ]} ∅ 0) = Undefined NullDeref /\
  run Sample.code Call_get_threshold 16
    (Memory {[ 16 := Handle 32 ]} ∅ 0) = Undefined InvalidDeref.
Proof.
  split.
  - apply (handle_without_table_is_undefined Sample.code
             (Call_set_threshold 2) 16 (Handle NULL)
             (Memory {[ 16 := Handle NULL ]} ∅ 0)).
    + discriminate.
    + reflexivity.
    + left. reflexivity.
  - apply (handle_without_table_is_undefined Sample.code
             Call_get_threshold 16 (Handle 32)
             (Memory {[ 16 := Handle 32 ]} ∅ 0)).
    + discriminate.
    + reflexivity.
    + right. reflexivity.
Defined.

(** X2: no entry point validates a slot pointer that is not null.  On a
    bound handle, a slot pointer that is not null and designates no
    function is called all the same: an invalid call, with nothing
    returned. *)
Theorem dangling_slot_is_invalid_call {B : Type} (code : gmap Z (cfun B))
    (c : facade_call) (controller : ptr) (t : metal_interrupt_vtable)
    (m : memory B) :
  bound controller t m ->
  slot_of c t <> NULL ->
  code !! slot_of c t = None ->
  run code c controller m = Undefined InvalidCall.
Proof.
  intros Hb Hs Hnone. rewrite (run_bound _ _ _ _ _ Hb). unfold invoke.
  apply Z.eqb_neq in Hs. rewrite Hs, Hnone. reflexivity.
Qed.

Lemma dangling_slot_is_invalid_call_witness :
  run Sample.code (Call_vector_disable 3) 16
    (Sample.mem (Vtable 0 0 0 0 0 300 0 0 0 0 0 0))
  = Undefined InvalidCall.
Proof.
  apply (dangling_slot_is_invalid_call Sample.code (Call_vector_disable 3) 16
           (Vtable 0 0 0 0 0 300 0 0 0 0 0 0) _ (sample_bound _)).
  - discriminate.
  - reflexivity.
Defined.

(** X3: an entry point reads its own slot and no other.  On two tables
    that hold the same pointer in the slot of an entry point, whatever
    their other eleven slots hold (filled or not), that entry point is
    the same call: through that pointer, with the caller's arguments. *)
Theorem facade_reads_only_its_slot {B : Type} (code : gmap Z (cfun B))
    (c : facade_call) (controller : ptr) (t t' : metal_interrupt_vtable)
    (m m' : memory B) :
  slot_of c t = slot_of c t' ->
  bound controller t m ->
  bound controller t' m' ->
  run code c controller m = invoke code (slot_of c t) c controller m /\
  run code c controller m' = invoke code (slot_of c t) c controller m'.
Proof.
  intros Hs Hb Hb'. split.
  - apply run_bound, Hb.
  - rewrite Hs. apply run_bound, Hb'.
Qed.

Lemma facade_reads_only_its_slot_witness :
  run Sample.code Call_get_threshold 16 (Sample.mem Sample.table)
  = invoke Sample.code 272 Call_get_threshold 16 (Sample.mem Sample.table) /\
  run Sample.code Call_get_threshold 16
    (Sample.mem (Vtable 0 0 0 0 0 0 272 0 0 0 0 0))
  = invoke Sample.code 272 Call_get_threshold 16
      (Sample.mem (Vtable 0 0 0 0 0 0 272 0 0 0 0 0)).
Proof.
  apply (facade_reads_only_its_slot Sample.code Call_get_threshold 16
           Sample.table (Vtable 0 0 0 0 0 0 272 0 0 0 0 0)).
  - reflexivity.
  - apply sample_bound.
  - apply sample_bound.
Defined.

(** X4: the entry points tell the backend nothing of which of them was
    used.  [enable], [disable] and [vector_disable] go through slots of
    one C type; for each two of them, when the handle's table holds the
    same pointer in the two slots, the two entry points have the same
    outcome, for every handle, interrupt id and memory. *)
Theorem same_type_slots_alias {B : Type} (code : gmap Z (cfun B))
    (controller : ptr) (id : Z) (m : memory B) :
  ((forall o t,
       objs m !! controller = Some o -> tabs m !! vtable o = Some t ->
       interrupt_enable t = interrupt_disable t) ->
   metal_interrupt_enable code controller id m
   = metal_interrupt_disable code controller id m) /\
  ((forall o t,
       objs m !! controller = Some o -> tabs m !! vtable o = Some t ->
       interrupt_vector_disable t = interrupt_disable t) ->
   metal_interrupt_vector_disable code controller id m
   = metal_interrupt_disable code controller id m) /\
  ((forall o t,
       objs m !! controller = Some o -> tabs m !! vtable o = Some t ->
       interrupt_enable t = interrupt_vector_disable t) ->
   metal_interrupt_enable code controller id m
   = metal_interrupt_vector_disable code controller id m).
Proof.
  repeat apply conj; intros Hsame; unfold_facade;
    (destruct (controller =? NULL); [reflexivity|]);
    (destruct (objs m !! controller) as [o|] eqn:Ho; [|reflexivity]);
    (destruct (vtable o =? NULL); [reflexivity|]);
    (destruct (tabs m !! vtable o) as [t|] eqn:Ht; [|reflexivity]);
    rewrite (Hsame o t eq_refl Ht); reflexivity.
Qed.

Lemma same_type_slots_alias_witness :
  metal_interrupt_enable Sample.code 16 3
    (Sample.mem (Vtable 0 0 260 260 0 0 0 0 0 0 0 0))
  = metal_interrupt_disable Sample.code 16 3
      (Sample.mem (Vtable 0 0 260 260 0 0 0 0 0 0 0 0)).
Proof.
  apply (proj1 (same_type_slots_alias Sample.code 16 3
                  (Sample.mem (Vtable 0 0 260 260 0 0 0 0 0 0 0 0)))).
  intros o t Ho Ht. vm_compute in Ho, Ht.
  injection Ho as <-. injection Ht as <-. reflexivity.
Defined.

(** X5: the entry points keep no state between calls.  On a platform
    whose backend functions leave the handle objects and the tables
    alone, a run of facade calls on handles bound at the start is the run
    of the backend calls through the slot pointers read at the start: the
    two loads every entry point makes can be made once, beforehand. *)
Theorem run_all_is_invoke_all {B : Type} (code : gmap Z (cfun B))
    (calls : list (facade_call * ptr * metal_interrupt_vtable))
    (m : memory B) :
  keeps_dispatch_data code ->
  Forall (fun x => bound x.1.2 x.2 m) calls ->
  run_all code (fst <$> calls) m = invoke_all code calls m.
Proof.
  intros Hkeep. revert m.
  induction calls as [|[[c controller] t] rest IH]; intros m Hb.
  - reflexivity.
  - apply Forall_cons in Hb as [Hhead Hrest]. simpl in Hhead.
    simpl. unfold bind at 1 3.
    rewrite (run_bound code c controller t m Hhead).
    destruct (invoke code (slot_of c t) c controller m) as [r m1| |] eqn:Hc;
      try reflexivity.
    destruct (invoke_Done_inv _ _ _ _ _ _ _ Hc) as (fn & k & [_ Hp] & Hk & Hr).
    destruct (Hkeep _ _ _ _ _ _ _ _ Hp Hk Hr) as [Ho Ht].
    unfold bind. rewrite IH; [reflexivity|].
    eapply Forall_impl; [exact Hrest|].
    intros x Hx. apply (bound_same_dispatch_data _ _ _ _ Ho Ht Hx).
Qed.

Lemma run_all_is_invoke_all_witness :
  run_all Sample.code [(Call_init, 16); (Call_enable 3, 16)]
    (Sample.mem Sample.table)
  = invoke_all Sample.code
      [(Call_init, 16, Sample.table); (Call_enable 3, 16, Sample.table)]
      (Sample.mem Sample.table).
Proof.
  apply (run_all_is_invoke_all Sample.code
           [(Call_init, 16, Sample.table); (Call_enable 3, 16, Sample.table)]
           (Sample.mem Sample.table)).
  - exact sample_code_keeps_dispatch_data.
  - constructor; [apply sample_bound|].
    constructor; [apply sample_bound|]. constructor.
Defined.



(** X7: the result of a lookup has to be tested before it is used.  When
    no controller is registered under a kind and instance number, what
    [metal_interrupt_get_controller] returns is [NULL], and every entry
    point called on it is a null dereference. *)
Theorem lookup_miss_then_call_is_null_deref {B : Type}
    (code : gmap Z (cfun B)) (regs : list registration)
    (cntrl : metal_intr_cntrl_type) (id : Z) (c : facade_call)
    (m : memory B) :
  (cntrl, id) ∉ registration_key <$> regs ->
  run code c
    (metal_interrupt_get_controller (directory_setup regs) cntrl id) m
  = Undefined NullDeref.
Proof.
  intros Hkey. unfold metal_interrupt_get_controller.
  rewrite (directory_setup_unregistered _ _ Hkey).
  rewrite run_dispatch. reflexivity.
Qed.

Lemma lookup_miss_then_call_is_null_deref_witness :
  run Sample.code Call_init
    (metal_interrupt_get_controller
       (directory_setup [(METAL_PLIC_CONTROLLER, 0, 16)])
       METAL_CLINT_CONTROLLER 0)
    (Sample.mem Sample.table)
  = Undefined NullDeref.
Proof.
  apply (lookup_miss_then_call_is_null_deref Sample.code
           [(METAL_PLIC_CONTROLLER, 0, 16)] METAL_CLINT_CONTROLLER 0
           Call_init (Sample.mem Sample.table)).
  compute_done.
Defined.
